(** * The ComfyUI minimap extension registrar ([src/__init__.py])

    The package initialiser is a module body of two statements: the
    docstring and the assignment [WEB_DIRECTORY = "."].  The development
    embeds that body as a computation in a state-and-exception monad over a
    Python module namespace, next to the part of the interpreter's
    surroundings the statements of the specification talk about: the file
    system, the environment, the command line and the standard output. *)

From Stdlib Require Import String Ascii List Bool Arith Lia.
From stdpp Require Import base option strings gmap fin_maps list.

Local Open Scope string_scope.

(** ** Python objects, exceptions and the interpreter state *)

Module Py.

(** The objects a module namespace of this kind can hold. *)
Inductive value : Type :=
  | VNone
  | VStr (s : string)
  | VFunction (qualname : string)
  | VClass (qualname : string)
  | VObject (repr : string).

Inductive exn : Type :=
  | AttributeError (name : string).

(** A file-system tree.  [readable] is the directory's read permission
    (the one [os.listdir] needs). *)
#[warnings="-register-all"]
Inductive node : Type :=
  | File (data : string)
  | Dir (readable : bool) (entries : list (string * node)).

(** What lies outside the module object.  [cwd] is the stack of
    directories from the current one up to the root (the root is last). *)
Record world : Type := World {
  cwd : list node;
  environ : gmap string string;
  argv : list string;
  stdout : list string
}.

(** One effect of a statement on the namespace: the [STORE_NAME] of a
    binding. *)
Inductive event : Type :=
  | Store (name : string) (v : value).

(** The interpreter state seen by a module body: the module's namespace
    ([module.__dict__]), the world outside it, and the log of the stores
    executed so far. *)
Record state : Type := State {
  globals : gmap string value;
  outside : world;
  trace : list event
}.

Inductive result (A : Type) : Type :=
  | Ok (a : A)
  | Raise (e : exn).
Arguments Ok {A} a.
Arguments Raise {A} e.

(** Computations: state passing with exceptions. *)
Definition M (A : Type) : Type := state -> result (A * state).

Definition ret {A} (a : A) : M A := fun s => Ok (a, s).

Definition bind {A B} (m : M A) (k : A -> M B) : M B :=
  fun s => match m s with
           | Ok (a, s') => k a s'
           | Raise e => Raise e
           end.

Definition raise {A} (e : exn) : M A := fun _ => Raise e.

#[global] Instance M_ret : MRet M := @ret.
#[global] Instance M_bind : MBind M := fun A B k m => bind m k.

(** [name = v] at module level. *)
Definition store_name (name : string) (v : value) : M unit :=
  fun s => Ok (tt, {| globals := <[name := v]> (globals s);
                      outside := outside s;
                      trace := trace s ++ [Store name v] |}).

(** [getattr(module, name)]. *)
Definition getattr (name : string) : M value :=
  fun s => match globals s !! name with
           | Some v => Ok (v, s)
           | None => raise (AttributeError name) s
           end.

(** [getattr(module, name, None)] with the absent case kept apart. *)
Definition getattr_opt (name : string) : M (option value) :=
  fun s => Ok (globals s !! name, s).

(** A run of attribute reads, in order. *)
Fixpoint reads (names : list string) : M (list (option value)) :=
  match names with
  | [] => mret []
  | n :: ns => v ← getattr_opt n; vs ← reads ns; mret (v :: vs)
  end.

Definition callable (v : value) : bool :=
  match v with VFunction _ | VClass _ => true | _ => false end.

(** A name is public when it does not start with an underscore (what
    [from module import *] takes when there is no [__all__]). *)
Definition is_public (name : string) : bool :=
  match name with
  | String c _ => negb (Ascii.eqb c "_")
  | EmptyString => true
  end.

Definition event_name (e : event) : string :=
  match e with Store n _ => n end.

(** The stores to [name] in a log. *)
Definition stores_to (name : string) (t : list event) : list event :=
  List.filter (fun e => String.eqb (event_name e) name) t.

(** The stores to public names in a log. *)
Definition public_stores (t : list event) : list event :=
  List.filter (fun e => is_public (event_name e)) t.

(** The public part of a namespace. *)
Definition public (g : gmap string value) : gmap string value :=
  filter (fun kv => is_public kv.1 = true) g.

End Py.

(** ** Paths: [posixpath] and path resolution

    [WEB_DIRECTORY] is a path, and what it denotes is decided by the path
    functions of Python's [posixpath] and by the lookup the operating system
    performs on a path; both are modelled here as far as the statements
    below need them. *)

Module PosixPath.
Import Py.

Definition sep : ascii := "/"%char.

(** [p.startswith('/')], which is also [posixpath.isabs(p)]. *)
Definition isabs (p : string) : bool :=
  match p with
  | String c _ => Ascii.eqb c sep
  | EmptyString => false
  end.

(** [p.endswith('/')]. *)
Fixpoint endswith_sep (p : string) : bool :=
  match p with
  | EmptyString => false
  | String c EmptyString => Ascii.eqb c sep
  | String _ r => endswith_sep r
  end.

(** [posixpath.join(a, b)]. *)
Definition join (a b : string) : string :=
  if isabs b then b
  else if String.eqb a "" || endswith_sep a then a ++ b
  else a ++ String sep b.

(** [p.split('/')]. *)
Fixpoint split (p : string) : list string :=
  match p with
  | EmptyString => [EmptyString]
  | String c r =>
      if Ascii.eqb c sep then EmptyString :: split r
      else match split r with
           | h :: t => String c h :: t
           | [] => [String c EmptyString]
           end
  end.

Fixpoint has_sep (p : string) : bool :=
  match p with
  | EmptyString => false
  | String c r => Ascii.eqb c sep || has_sep r
  end.

(** The names a directory entry can have. *)
Definition is_filename (f : string) : bool :=
  negb (String.eqb f "") && negb (String.eqb f ".")
  && negb (String.eqb f "..") && negb (has_sep f).

Fixpoint find_entry (name : string) (es : list (string * node)) : option node :=
  match es with
  | [] => None
  | (n, x) :: r => if String.eqb n name then Some x else find_entry name r
  end.

(** One component of a path walk.  [stk] is the directory reached so far
    with its ancestors; a component is looked up in a directory only. *)
Definition step (stk : list node) (comp : string) : option (list node) :=
  match stk with
  | Dir _ es :: up =>
      if String.eqb comp "" || String.eqb comp "." then Some stk
      else if String.eqb comp ".." then
        Some (match up with [] => stk | _ :: _ => up end)
      else match find_entry comp es with
           | Some n => Some (n :: stk)
           | None => None
           end
  | _ => None
  end.

Fixpoint steps (stk : list node) (comps : list string) : option (list node) :=
  match comps with
  | [] => Some stk
  | c :: cs =>
      match step stk c with
      | Some stk' => steps stk' cs
      | None => None
      end
  end.

Definition root_stack (stk : list node) : list node :=
  match last stk with
  | Some r => [r]
  | None => []
  end.

(** The node a path names, looked up from the directory stack [stk] (an
    absolute path starts over from the root; the empty path names
    nothing). *)
Definition resolve (stk : list node) (p : string) : option node :=
  if String.eqb p "" then None
  else match steps (if isabs p then root_stack stk else stk) (split p) with
       | Some (n :: _) => Some n
       | _ => None
       end.

Definition is_dir (o : option node) : bool :=
  match o with Some (Dir _ _) => true | _ => false end.

Definition is_readable_dir (o : option node) : bool :=
  match o with Some (Dir r _) => r | _ => false end.

End PosixPath.

(** ** The source: [src/__init__.py] *)

Module Minimap.
Import Py.

Definition docstring : string :=
"
Minimap extension for ComfyUI.

This repository contains a custom ComfyUI extension that provides a minimap overlay. Place this directory inside your ComfyUI `custom_nodes` folder to enable the minimap. The interactive behaviour is implemented in `minimap.js`.
".

Definition WEB_DIRECTORY : string := ".".

(** The module body: the docstring statement binds [__doc__], the
    assignment binds [WEB_DIRECTORY]. *)
Definition module_body : M unit :=
  store_name "__doc__" (VStr docstring) ;;
  store_name "WEB_DIRECTORY" (VStr WEB_DIRECTORY).

End Minimap.

(** ** The host's side: loading the package and using the announced path *)

Module Host.
Import Py PosixPath Minimap.

(** The namespace of a package module as the import system hands it to
    the module body: only double-underscore names. *)
Definition fresh_namespace (name file : string) : gmap string value :=
  <["__name__" := VStr name]>
  (<["__doc__" := VNone]>
  (<["__package__" := VStr name]>
  (<["__loader__" := VObject "SourceFileLoader"]>
  (<["__spec__" := VObject "ModuleSpec"]>
  (<["__file__" := VStr file]>
  (<["__builtins__" := VObject "builtins"]> ∅)))))).

(** Loading the package: the module body run on a namespace [g] in the
    world [w]. *)
Definition load (g : gmap string value) (w : world) : result (unit * state) :=
  module_body {| globals := g; outside := w; trace := [] |}.

(** The state a load is expected to leave: the two bindings added to the
    namespace and to the log, the world as it was.  [run_module_body]
    below proves that the module body computes it. *)
Definition loaded (s : state) : state :=
  {| globals := <["WEB_DIRECTORY" := VStr WEB_DIRECTORY]>
                  (<["__doc__" := VStr docstring]> (globals s));
     outside := outside s;
     trace := trace s ++ [Store "__doc__" (VStr docstring);
                          Store "WEB_DIRECTORY" (VStr WEB_DIRECTORY)] |}.

(** The host reads the announced value twice, with other attribute reads
    before and between. *)
Definition read_twice (before between : list string) : M (value * value) :=
  reads before ;;
  v1 ← getattr "WEB_DIRECTORY";
  reads between ;;
  v2 ← getattr "WEB_DIRECTORY";
  mret (v1, v2).

(** The directory the host serves: the announced value joined to the
    directory [module_dir] the package was found in. *)
Definition announced_dir (w : world) (module_dir : string) : option node :=
  resolve (cwd w) (join module_dir WEB_DIRECTORY).

(** The three situations the registrar does not look for. *)
Definition dir_missing (w : world) (module_dir : string) : bool :=
  negb (is_dir (announced_dir w module_dir)).

Definition dir_empty (w : world) (module_dir : string) : bool :=
  match announced_dir w module_dir with
  | Some (Dir _ []) => true
  | _ => false
  end.

Definition lacks_script (w : world) (module_dir : string) : bool :=
  match announced_dir w module_dir with
  | Some (Dir _ es) =>
      match find_entry "minimap.js" es with Some _ => false | None => true end
  | _ => false
  end.

(** Some concrete worlds. *)
Definition plain_world (root : node) : world :=
  {| cwd := [root]; environ := ∅; argv := ["main.py"]; stdout := [] |}.

Definition installed_root (ext : node) : node :=
  Dir true [("custom_nodes", Dir true [("minimap", ext)])].

Definition ext_with_script : node :=
  Dir true [("__init__.py", File "WEB_DIRECTORY"); ("minimap.js", File "app")].

Definition ext_without_script : node :=
  Dir true [("__init__.py", File "WEB_DIRECTORY")].

Definition ext_unreadable : node :=
  Dir false [("__init__.py", File "WEB_DIRECTORY")].

Definition install_path : string := "/custom_nodes/minimap".

Definition init_file : string := "/custom_nodes/minimap/__init__.py".

End Host.

(** ** Running the monad *)

Section Running.
Import Py Minimap Host.

Lemma run_store_name name v s :
  store_name name v s =
  Ok (tt, {| globals := <[name := v]> (globals s);
             outside := outside s;
             trace := trace s ++ [Store name v] |}).
Proof. reflexivity. Qed.

Lemma run_bind {A B} (m : M A) (k : A -> M B) s a s' :
  m s = Ok (a, s') -> (m ≫= k) s = k a s'.
Proof. intros H. unfold mbind, M_bind, bind. now rewrite H. Qed.

Lemma run_module_body s : module_body s = Ok (tt, loaded s).
Proof.
  unfold module_body. rewrite (run_bind _ _ _ _ _ (run_store_name _ _ s)).
  rewrite run_store_name. unfold loaded. cbn [globals outside trace].
  now rewrite <- app_assoc.
Qed.

Lemma run_getattr_opt name s : getattr_opt name s = Ok (globals s !! name, s).
Proof. reflexivity. Qed.

Lemma run_getattr name v s :
  globals s !! name = Some v -> getattr name s = Ok (v, s).
Proof. intros H. unfold getattr. now rewrite H. Qed.

(** Reads return the bindings and leave the state as it is. *)
Lemma run_reads names s :
  reads names s = Ok (List.map (fun n => globals s !! n) names, s).
Proof.
  induction names as [|n ns IH]; [reflexivity|].
  cbn [reads List.map].
  rewrite (run_bind _ _ _ _ _ (run_getattr_opt n s)).
  now rewrite (run_bind _ _ _ _ _ IH).
Qed.

Lemma loaded_web_directory s :
  globals (loaded s) !! "WEB_DIRECTORY" = Some (VStr WEB_DIRECTORY).
Proof. cbn [loaded globals]. apply lookup_insert_eq. Qed.

End Running.

(** ** Paths *)

Section Paths.
Import Py PosixPath.

Lemma split_not_nil p : split p <> [].
Proof.
  destruct p as [|c r]; cbn [split]; [discriminate|].
  destruct (Ascii.eqb c sep); [discriminate|].
  destruct (split r); discriminate.
Qed.

Lemma append_nil (b : string) : "" ++ b = b.
Proof. reflexivity. Qed.

Lemma append_cons c (a b : string) : String c a ++ b = String c (a ++ b).
Proof. reflexivity. Qed.

Lemma split_app_sep a b :
  split (a ++ String sep b) = (split a ++ split b)%list.
Proof.
  induction a as [|c a IH]; rewrite ?append_nil, ?append_cons; cbn [split].
  - now rewrite Ascii.eqb_refl.
  - rewrite IH. destruct (Ascii.eqb c sep); [reflexivity|].
    destruct (split a) as [|h t] eqn:E; [now apply split_not_nil in E|].
    reflexivity.
Qed.

Lemma split_no_sep f : has_sep f = false -> split f = [f].
Proof.
  induction f as [|c f IH]; cbn [has_sep split]; [reflexivity|].
  intros H. apply orb_false_iff in H as [Hc Hf].
  rewrite Hc, (IH Hf). reflexivity.
Qed.

Lemma endswith_sep_inv a :
  endswith_sep a = true -> exists a0, a = a0 ++ String sep "".
Proof.
  induction a as [|c a IH]; cbn [endswith_sep]; [discriminate|].
  destruct a as [|c' a'].
  - intros H. apply Ascii.eqb_eq in H. subst c. now exists "".
  - intros H. destruct (IH H) as [a0 E]. exists (String c a0).
    rewrite append_cons. now rewrite <- E.
Qed.

Lemma append_assoc (a b c : string) : (a ++ b) ++ c = a ++ (b ++ c).
Proof.
  induction a as [|x a IH]; rewrite ?append_nil, ?append_cons;
    [reflexivity|now rewrite IH].
Qed.

Lemma isabs_append a b : a <> "" -> isabs (a ++ b) = isabs a.
Proof. destruct a; [congruence|reflexivity]. Qed.

Lemma steps_app stk xs ys :
  steps stk (xs ++ ys) =
  match steps stk xs with Some stk' => steps stk' ys | None => None end.
Proof.
  revert stk. induction xs as [|x xs IH]; intros stk; cbn [steps app]; [reflexivity|].
  destruct (step stk x); [apply IH|reflexivity].
Qed.

(** A component walked from anything but a directory fails, and the empty
    component leaves a directory where it is. *)
Lemma steps_after_empty stk comps :
  comps <> [] ->
  match step stk "" with Some stk' => steps stk' comps | None => None end
  = steps stk comps.
Proof.
  intros Hne. destruct stk as [|[d|r es] up]; cbn [step].
  - destruct comps; [congruence|reflexivity].
  - destruct comps; [congruence|reflexivity].
  - reflexivity.
Qed.

(** Walking a joined path is walking the first path and then the second. *)
Lemma steps_join stk a b :
  a <> "" -> isabs b = false ->
  steps stk (split (join a b)) =
  match steps stk (split a) with
  | Some stk' => steps stk' (split b)
  | None => None
  end.
Proof.
  intros Ha Hb. unfold join. rewrite Hb.
  apply String.eqb_neq in Ha. rewrite Ha. cbn [orb].
  destruct (endswith_sep a) eqn:E.
  - destruct (endswith_sep_inv _ E) as [a0 ->].
    rewrite append_assoc, append_cons, append_nil.
    rewrite !split_app_sep, !steps_app. cbn [split steps].
    destruct (steps stk (split a0)) as [stk0|]; [|reflexivity].
    rewrite <- (steps_after_empty stk0 (split b)) by apply split_not_nil.
    destruct (step stk0 ""); reflexivity.
  - now rewrite split_app_sep, steps_app.
Qed.

Lemma join_not_empty a b : a <> "" -> isabs b = false -> join a b <> "".
Proof.
  intros Ha Hb. unfold join. rewrite Hb.
  destruct a; [congruence|]. destruct (_ || _); discriminate.
Qed.

Lemma isabs_join a b : a <> "" -> isabs b = false -> isabs (join a b) = isabs a.
Proof.
  intros Ha Hb. unfold join. rewrite Hb.
  destruct (_ || _); now apply isabs_append.
Qed.

Lemma resolve_not_empty stk p n : resolve stk p = Some n -> p <> "".
Proof. intros H ->. discriminate. Qed.

(** Resolving [join a b] from [stk] when [a] names a node reached with the
    stack [stk']. *)
Lemma resolve_join stk a b :
  a <> "" -> isabs b = false ->
  resolve stk (join a b) =
  match steps (if isabs a then root_stack stk else stk) (split a) with
  | Some stk' =>
      match steps stk' (split b) with
      | Some (n :: _) => Some n
      | _ => None
      end
  | None => None
  end.
Proof.
  intros Ha Hb. unfold resolve.
  pose proof (join_not_empty a b Ha Hb) as Hj.
  apply String.eqb_neq in Hj. rewrite Hj.
  rewrite (isabs_join a b Ha Hb), (steps_join _ a b Ha Hb).
  destruct (steps _ (split a)); reflexivity.
Qed.

Lemma resolve_stack stk p n :
  resolve stk p = Some n ->
  exists up, steps (if isabs p then root_stack stk else stk) (split p)
             = Some (n :: up).
Proof.
  unfold resolve. destruct (String.eqb p ""); [discriminate|].
  destruct (steps _ _) as [[|m up]|]; try discriminate.
  intros [= ->]. now exists up.
Qed.

Lemma step_dot r es up : step (Dir r es :: up) "." = Some (Dir r es :: up).
Proof. reflexivity. Qed.

(** [join a "."] names the directory [a] names. *)
Lemma resolve_join_dot stk a r es :
  resolve stk a = Some (Dir r es) ->
  resolve stk (join a ".") = Some (Dir r es).
Proof.
  intros H. pose proof (resolve_not_empty _ _ _ H) as Ha.
  destruct (resolve_stack _ _ _ H) as [up Hs].
  rewrite resolve_join by (assumption || reflexivity).
  rewrite Hs. change (split ".") with ["."]. cbn [steps].
  now rewrite step_dot.
Qed.

Lemma is_filename_spec f :
  is_filename f = true ->
  String.eqb f "" = false /\ String.eqb f "." = false /\
  String.eqb f ".." = false /\ has_sep f = false.
Proof.
  unfold is_filename. rewrite !andb_true_iff, !negb_true_iff. tauto.
Qed.

Lemma isabs_filename f : has_sep f = false -> isabs f = false.
Proof.
  destruct f as [|c f]; [reflexivity|]. cbn [has_sep isabs].
  intros H. now apply orb_false_iff in H as [-> _].
Qed.

Lemma step_entry r es up f n :
  is_filename f = true -> find_entry f es = Some n ->
  step (Dir r es :: up) f = Some (n :: Dir r es :: up).
Proof.
  intros Hf Hn. destruct (is_filename_spec f Hf) as (He & Hd & Hdd & _).
  unfold step. now rewrite He, Hd, Hdd, Hn.
Qed.

(** [join a (join "." f)] names the entry [f] of the directory [a] names. *)
Lemma resolve_join_entry stk a r es f n :
  is_filename f = true ->
  resolve stk a = Some (Dir r es) ->
  find_entry f es = Some n ->
  resolve stk (join a (join "." f)) = Some n.
Proof.
  intros Hf H Hn. pose proof (resolve_not_empty _ _ _ H) as Ha.
  destruct (resolve_stack _ _ _ H) as [up Hs].
  destruct (is_filename_spec f Hf) as (He & Hd & Hdd & Hsep).
  assert (Hj : join "." f = String "." (String sep f)).
  { unfold join. now rewrite (isabs_filename f Hsep). }
  rewrite resolve_join; [|assumption|now rewrite Hj].
  rewrite Hs, Hj. change (String "." (String sep f)) with ("." ++ String sep f).
  rewrite split_app_sep, (split_no_sep f Hsep).
  change (split ".") with ["."]. cbn [app steps].
  rewrite step_dot, (step_entry r es up f n) by assumption.
  reflexivity.
Qed.

(** [join (join a ".") f] names that entry too. *)
Lemma resolve_join_dot_entry stk a r es f n :
  is_filename f = true ->
  resolve stk a = Some (Dir r es) ->
  find_entry f es = Some n ->
  resolve stk (join (join a ".") f) = Some n.
Proof.
  intros Hf H Hn. pose proof (resolve_not_empty _ _ _ H) as Ha.
  destruct (resolve_stack _ _ _ H) as [up Hs].
  destruct (is_filename_spec f Hf) as (_ & _ & _ & Hsep).
  pose proof (isabs_filename f Hsep) as Hab.
  rewrite resolve_join; [|now apply join_not_empty|assumption].
  rewrite isabs_join, steps_join by (assumption || reflexivity).
  rewrite Hs. change (split ".") with ["."]. cbn [steps].
  rewrite step_dot, (split_no_sep f Hsep). cbn [steps].
  now rewrite (step_entry r es up f n).
Qed.

(** With the directory as the current one, [join "." f] names its entry
    [f]. *)
Lemma resolve_dot_entry r es up f n :
  is_filename f = true ->
  find_entry f es = Some n ->
  resolve (Dir r es :: up) (join "." f) = Some n.
Proof.
  intros Hf Hn. destruct (is_filename_spec f Hf) as (_ & _ & _ & Hsep).
  assert (Hj : join "." f = "." ++ String sep f).
  { unfold join. now rewrite (isabs_filename f Hsep). }
  rewrite Hj. unfold resolve. rewrite append_cons, append_nil.
  cbn [String.eqb isabs]. change (Ascii.eqb "." sep) with false. cbv iota.
  change (String "." (String sep f)) with ("." ++ String sep f).
  rewrite split_app_sep, (split_no_sep f Hsep).
  change (split ".") with ["."]. cbn [app steps].
  now rewrite step_dot, (step_entry r es up f n).
Qed.

End Paths.

(** ** The registrar's contract *)

Section Registrar.
Import Py PosixPath Minimap Host.

Lemma run_load g w :
  load g w = Ok (tt, loaded {| globals := g; outside := w; trace := [] |}).
Proof. apply run_module_body. Qed.

Lemma run_read_twice before between s v :
  globals s !! "WEB_DIRECTORY" = Some v ->
  read_twice before between s = Ok ((v, v), s).
Proof.
  intros H. unfold read_twice.
  rewrite (run_bind _ _ _ _ _ (run_reads before s)).
  rewrite (run_bind _ _ _ _ _ (run_getattr _ _ s H)).
  rewrite (run_bind _ _ _ _ _ (run_reads between s)).
  rewrite (run_bind _ _ _ _ _ (run_getattr _ _ s H)).
  reflexivity.
Qed.

Lemma stores_to_app name t u :
  stores_to name (t ++ u) = (stores_to name t ++ stores_to name u)%list.
Proof. apply List.filter_app. Qed.

Lemma public_loaded g :
  public (<["WEB_DIRECTORY" := VStr WEB_DIRECTORY]>
            (<["__doc__" := VStr docstring]> g))
  = <["WEB_DIRECTORY" := VStr WEB_DIRECTORY]> (public g).
Proof.
  unfold public.
  rewrite map_filter_insert_True by reflexivity.
  rewrite map_filter_insert_not; [reflexivity|].
  intros y. cbn. discriminate.
Qed.

(** C3.  Running the module body completes normally from every state:
    whatever the namespace, the file system, the environment, the command
    line and the output so far are, the result is [Ok] and never an
    exception. *)
Theorem load_never_raises (s : state) :
  (exists s', module_body s = Ok (tt, s'))
  /\ (forall e, module_body s <> Raise e).
Proof.
  rewrite run_module_body. split; [now eexists|discriminate].
Qed.

(** C2.  The module body stores [WEB_DIRECTORY] exactly once, and after the
    load the binding stays as it is: any two reads of it, with any other
    reads before and between them, return the same string and leave the
    whole state, its log of stores included, unchanged. *)
Theorem web_directory_set_once_and_stable
    (s : state) (before between : list string) :
  exists s',
    module_body s = Ok (tt, s')
    /\ stores_to "WEB_DIRECTORY" (trace s')
       = (stores_to "WEB_DIRECTORY" (trace s)
          ++ [Store "WEB_DIRECTORY" (VStr WEB_DIRECTORY)])%list
    /\ read_twice before between s'
       = Ok ((VStr WEB_DIRECTORY, VStr WEB_DIRECTORY), s').
Proof.
  exists (loaded s). split; [apply run_module_body|]. split.
  - cbn [loaded trace]. now rewrite stores_to_app.
  - apply run_read_twice, loaded_web_directory.
Qed.

(** C6.  A load changes nothing but the module's own bindings: the world
    outside the module is the same after it, every name of the namespace
    other than [WEB_DIRECTORY] and [__doc__] is bound as before, and the
    stores executed are those two. *)
Theorem load_frame (s : state) :
  exists s',
    module_body s = Ok (tt, s')
    /\ outside s' = outside s
    /\ delete "WEB_DIRECTORY" (delete "__doc__" (globals s'))
       = delete "WEB_DIRECTORY" (delete "__doc__" (globals s))
    /\ trace s' = (trace s ++ [Store "__doc__" (VStr docstring);
                               Store "WEB_DIRECTORY" (VStr WEB_DIRECTORY)])%list.
Proof.
  exists (loaded s). split; [apply run_module_body|].
  split; [reflexivity|]. split; [|reflexivity].
  cbn [loaded globals]. apply map_eq. intros k.
  destruct (decide (k = "WEB_DIRECTORY")) as [->|Hw];
    [now rewrite !lookup_delete_eq|].
  rewrite !(lookup_delete_ne _ "WEB_DIRECTORY") by congruence.
  destruct (decide (k = "__doc__")) as [->|Hd];
    [now rewrite !lookup_delete_eq|].
  rewrite !(lookup_delete_ne _ "__doc__") by congruence.
  now rewrite !lookup_insert_ne by congruence.
Qed.

(** C9.  The value a load exposes depends on nothing: two loads from any
    two states (any namespaces, file systems, environments, command lines)
    both succeed and bind [WEB_DIRECTORY] to the same string. *)
Theorem load_is_deterministic (s1 s2 : state) :
  exists s1' s2',
    module_body s1 = Ok (tt, s1')
    /\ module_body s2 = Ok (tt, s2')
    /\ globals s1' !! "WEB_DIRECTORY" = Some (VStr WEB_DIRECTORY)
    /\ globals s2' !! "WEB_DIRECTORY" = globals s1' !! "WEB_DIRECTORY".
Proof.
  exists (loaded s1), (loaded s2).
  rewrite !run_module_body, !loaded_web_directory. repeat split.
Qed.

(** C1.  A load publishes one thing: its only store to a public name is
    the string bound to [WEB_DIRECTORY], which the host can read back, and
    which, joined to the directory the package lives in, names that very
    directory. *)
Theorem load_exposes_web_directory
    (g : gmap string value) (w : world) (module_dir : string)
    (r : bool) (es : list (string * node)) :
  resolve (cwd w) module_dir = Some (Dir r es) ->
  exists s,
    load g w = Ok (tt, s)
    /\ public_stores (trace s) = [Store "WEB_DIRECTORY" (VStr WEB_DIRECTORY)]
    /\ getattr "WEB_DIRECTORY" s = Ok (VStr WEB_DIRECTORY, s)
    /\ announced_dir (outside s) module_dir = Some (Dir r es).
Proof.
  intros H. eexists. split; [apply run_load|]. split; [reflexivity|]. split.
  - apply run_getattr, loaded_web_directory.
  - cbn [loaded outside]. unfold announced_dir. now apply resolve_join_dot.
Qed.

(** The package installed under [/custom_nodes/minimap] with its script. *)
Lemma load_exposes_web_directory_witness :
  exists s,
    load (fresh_namespace "minimap" init_file)
         (plain_world (installed_root ext_with_script)) = Ok (tt, s)
    /\ public_stores (trace s) = [Store "WEB_DIRECTORY" (VStr WEB_DIRECTORY)]
    /\ getattr "WEB_DIRECTORY" s = Ok (VStr WEB_DIRECTORY, s)
    /\ announced_dir (outside s) install_path = Some ext_with_script.
Proof.
  apply (load_exposes_web_directory _
           (plain_world (installed_root ext_with_script)) install_path).
  reflexivity.
Defined.

(** C4.  [WEB_DIRECTORY] is the one-character string ["."], a relative
    path, and it is what a load binds.  Alone it names the current
    directory of the process; it names the package's directory only once
    joined to the install location. *)
Theorem web_directory_is_relative_dot :
  WEB_DIRECTORY = "."
  /\ String.length WEB_DIRECTORY = 1
  /\ isabs WEB_DIRECTORY = false
  /\ (forall s, exists s',
        module_body s = Ok (tt, s')
        /\ globals s' !! "WEB_DIRECTORY" = Some (VStr "."))
  /\ (let w := plain_world (installed_root ext_with_script) in
      resolve (cwd w) WEB_DIRECTORY = Some (installed_root ext_with_script)
      /\ announced_dir w install_path = Some ext_with_script).
Proof.
  repeat split.
  intros s. exists (loaded s). split;
    [apply run_module_body|apply loaded_web_directory].
Qed.

(** C5.  When the announced directory is missing, is empty or lacks
    [minimap.js], the load still completes normally and reports nothing:
    the world, standard output included, is as before, and the namespace
    and the stores are the ones a load in any other world produces. *)
Theorem load_ignores_asset_directory
    (g : gmap string value) (w : world) (module_dir : string) :
  dir_missing w module_dir = true
  \/ dir_empty w module_dir = true
  \/ lacks_script w module_dir = true ->
  exists s,
    load g w = Ok (tt, s)
    /\ outside s = w
    /\ forall w', exists s',
         load g w' = Ok (tt, s')
         /\ globals s' = globals s /\ trace s' = trace s.
Proof.
  intros _. eexists. split; [apply run_load|]. split; [reflexivity|].
  intros w'. eexists. split; [apply run_load|]. split; reflexivity.
Qed.

(** One world for each of the three situations: nothing installed, an
    empty install directory, an install directory without the script. *)
Lemma load_ignores_asset_directory_witness :
  (exists s,
     load (fresh_namespace "minimap" init_file) (plain_world (Dir true []))
     = Ok (tt, s)
     /\ outside s = plain_world (Dir true [])
     /\ forall w', exists s',
          load (fresh_namespace "minimap" init_file) w' = Ok (tt, s')
          /\ globals s' = globals s /\ trace s' = trace s)
  /\ (exists s,
     load (fresh_namespace "minimap" init_file)
          (plain_world (installed_root (Dir true []))) = Ok (tt, s)
     /\ outside s = plain_world (installed_root (Dir true []))
     /\ forall w', exists s',
          load (fresh_namespace "minimap" init_file) w' = Ok (tt, s')
          /\ globals s' = globals s /\ trace s' = trace s)
  /\ (exists s,
     load (fresh_namespace "minimap" init_file)
          (plain_world (installed_root ext_without_script)) = Ok (tt, s)
     /\ outside s = plain_world (installed_root ext_without_script)
     /\ forall w', exists s',
          load (fresh_namespace "minimap" init_file) w' = Ok (tt, s')
          /\ globals s' = globals s /\ trace s' = trace s).
Proof.
  split; [|split].
  - apply (load_ignores_asset_directory _ _ install_path).
    left. reflexivity.
  - apply (load_ignores_asset_directory _ _ install_path).
    right; left. reflexivity.
  - apply (load_ignores_asset_directory _ _ install_path).
    right; right. reflexivity.
Defined.

(** C7, as stated, fails: the load succeeds in a world where the install
    location does not exist, and in one where it exists but cannot be
    read; the registrar looks at neither. *)
Lemma announced_dir_unchecked :
  (load (fresh_namespace "minimap" init_file) (plain_world (Dir true []))
   = Ok (tt, loaded {| globals := fresh_namespace "minimap" init_file;
                       outside := plain_world (Dir true []);
                       trace := [] |})
   /\ is_dir (announced_dir (plain_world (Dir true [])) install_path) = false)
  /\ (load (fresh_namespace "minimap" init_file)
           (plain_world (installed_root ext_unreadable))
      = Ok (tt, loaded {| globals := fresh_namespace "minimap" init_file;
                          outside := plain_world (installed_root ext_unreadable);
                          trace := [] |})
      /\ is_dir (announced_dir (plain_world (installed_root ext_unreadable))
                              install_path) = true
      /\ is_readable_dir
           (announced_dir (plain_world (installed_root ext_unreadable))
                          install_path) = false).
Proof.
  split; [split|split; [|split]];
    first [apply run_load | reflexivity].
Qed.

(** C7, amended.  The announced value joined to the install location names
    the install location itself: whenever that is a directory, the
    announced directory is that directory, and it is readable exactly when
    the install location is. *)
Theorem announced_dir_is_install_dir
    (g : gmap string value) (w : world) (module_dir : string)
    (r : bool) (es : list (string * node)) :
  resolve (cwd w) module_dir = Some (Dir r es) ->
  exists s,
    load g w = Ok (tt, s)
    /\ announced_dir (outside s) module_dir = resolve (cwd w) module_dir
    /\ is_dir (announced_dir (outside s) module_dir) = true
    /\ is_readable_dir (announced_dir (outside s) module_dir) = r.
Proof.
  intros H. eexists. split; [apply run_load|].
  cbn [loaded outside]. unfold announced_dir, WEB_DIRECTORY.
  rewrite (resolve_join_dot _ _ _ _ H), H. repeat split.
Qed.

(** A readable install directory is announced as such. *)
Lemma announced_dir_is_install_dir_witness :
  exists s,
    load (fresh_namespace "minimap" init_file)
         (plain_world (installed_root ext_with_script)) = Ok (tt, s)
    /\ announced_dir (outside s) install_path
       = resolve (cwd (plain_world (installed_root ext_with_script)))
                 install_path
    /\ is_dir (announced_dir (outside s) install_path) = true
    /\ is_readable_dir (announced_dir (outside s) install_path) = true.
Proof.
  apply (announced_dir_is_install_dir _
           (plain_world (installed_root ext_with_script)) install_path
           true [("__init__.py", File "WEB_DIRECTORY");
                 ("minimap.js", File "app")]).
  reflexivity.
Defined.

(** C8.  A file placed in the announced directory is found by joining the
    announced value with its name: for every entry name [f] of the install
    directory, [join WEB_DIRECTORY f] is ["./" ++ f], it names that entry
    from the directory itself, and so does the path the host builds from
    the install location, whichever way it joins. *)
Theorem join_locates_file
    (w : world) (module_dir : string) (r : bool)
    (es : list (string * node)) (f : string) (n : node) :
  is_filename f = true ->
  resolve (cwd w) module_dir = Some (Dir r es) ->
  find_entry f es = Some n ->
  announced_dir w module_dir = Some (Dir r es)
  /\ join WEB_DIRECTORY f = String "." (String sep f)
  /\ (forall up, resolve (Dir r es :: up) (join WEB_DIRECTORY f) = Some n)
  /\ resolve (cwd w) (join module_dir (join WEB_DIRECTORY f)) = Some n
  /\ resolve (cwd w) (join (join module_dir WEB_DIRECTORY) f) = Some n.
Proof.
  intros Hf H Hn. unfold announced_dir, WEB_DIRECTORY. repeat split.
  - now apply resolve_join_dot.
  - destruct (is_filename_spec f Hf) as (_ & _ & _ & Hsep).
    unfold join. now rewrite (isabs_filename f Hsep).
  - intros up. now apply resolve_dot_entry.
  - now apply (resolve_join_entry _ _ r es).
  - now apply (resolve_join_dot_entry _ _ r es).
Qed.

(** [minimap.js] in the installed package. *)
Lemma join_locates_file_witness :
  let w := plain_world (installed_root ext_with_script) in
  announced_dir w install_path = Some ext_with_script
  /\ join WEB_DIRECTORY "minimap.js" = "./minimap.js"
  /\ (forall up, resolve (ext_with_script :: up)
                         (join WEB_DIRECTORY "minimap.js")
                 = Some (File "app"))
  /\ resolve (cwd w) (join install_path (join WEB_DIRECTORY "minimap.js"))
     = Some (File "app")
  /\ resolve (cwd w) (join (join install_path WEB_DIRECTORY) "minimap.js")
     = Some (File "app").
Proof.
  apply (join_locates_file (plain_world (installed_root ext_with_script))
           install_path true
           [("__init__.py", File "WEB_DIRECTORY"); ("minimap.js", File "app")]
           "minimap.js" (File "app")); reflexivity.
Defined.

Lemma public_lookup (g : gmap string value) n v :
  is_public n = true -> g !! n = Some v -> public g !! n = Some v.
Proof. intros Hp Hg. unfold public. now apply map_lookup_filter_Some. Qed.

(** C10.  Loaded on a namespace that holds no public name, as the import
    system provides it, the module has exactly one public binding,
    [WEB_DIRECTORY]; besides it the body binds only the docstring.  No
    public name holds a function or a class, and the node-mapping names the
    host looks for are unbound. *)
Theorem module_public_interface (g : gmap string value) (w : world) :
  public g = ∅ ->
  exists s,
    load g w = Ok (tt, s)
    /\ public (globals s) = {["WEB_DIRECTORY" := VStr WEB_DIRECTORY]}
    /\ dom (globals s) = {["WEB_DIRECTORY"]} ∪ ({["__doc__"]} ∪ dom g)
    /\ globals s !! "__doc__" = Some (VStr docstring)
    /\ (forall n v, is_public n = true -> globals s !! n = Some v ->
                    n = "WEB_DIRECTORY" /\ callable v = false)
    /\ globals s !! "NODE_CLASS_MAPPINGS" = None
    /\ globals s !! "NODE_DISPLAY_NAME_MAPPINGS" = None.
Proof.
  intros Hg. eexists. split; [apply run_load|]. cbn [loaded globals].
  assert (Hpub : public (<["WEB_DIRECTORY" := VStr WEB_DIRECTORY]>
                           (<["__doc__" := VStr docstring]> g))
                 = {["WEB_DIRECTORY" := VStr WEB_DIRECTORY]}).
  { rewrite public_loaded, Hg. apply insert_empty. }
  assert (Hone : forall n v, is_public n = true ->
            <["WEB_DIRECTORY" := VStr WEB_DIRECTORY]>
              (<["__doc__" := VStr docstring]> g) !! n = Some v ->
            n = "WEB_DIRECTORY" /\ callable v = false).
  { intros n v Hp Hn. pose proof (public_lookup _ n v Hp Hn) as Hl.
    rewrite Hpub in Hl. apply lookup_singleton_Some in Hl as [<- <-].
    now split. }
  split; [exact Hpub|]. split; [now rewrite !dom_insert_L|].
  split; [now rewrite lookup_insert_ne, lookup_insert_eq|].
  split; [exact Hone|].
  split.
  - destruct (_ !! "NODE_CLASS_MAPPINGS") as [v|] eqn:E; [|reflexivity].
    now destruct (Hone "NODE_CLASS_MAPPINGS" v eq_refl E).
  - destruct (_ !! "NODE_DISPLAY_NAME_MAPPINGS") as [v|] eqn:E; [|reflexivity].
    now destruct (Hone "NODE_DISPLAY_NAME_MAPPINGS" v eq_refl E).
Qed.

(** The namespace the import system hands over holds no public name. *)
Lemma module_public_interface_witness :
  exists s,
    load (fresh_namespace "minimap" init_file)
         (plain_world (installed_root ext_with_script)) = Ok (tt, s)
    /\ public (globals s) = {["WEB_DIRECTORY" := VStr WEB_DIRECTORY]}
    /\ dom (globals s)
       = {["WEB_DIRECTORY"]}
         ∪ ({["__doc__"]} ∪ dom (fresh_namespace "minimap" init_file))
    /\ globals s !! "__doc__" = Some (VStr docstring)
    /\ (forall n v, is_public n = true -> globals s !! n = Some v ->
                    n = "WEB_DIRECTORY" /\ callable v = false)
    /\ globals s !! "NODE_CLASS_MAPPINGS" = None
    /\ globals s !! "NODE_DISPLAY_NAME_MAPPINGS" = None.
Proof.
  apply (module_public_interface (fresh_namespace "minimap" init_file)
           (plain_world (installed_root ext_with_script))).
  reflexivity.
Defined.

End Registrar.

(** ** Beyond the contract: reloading, and reading what is not there *)

Section Reload.
Import Py PosixPath Minimap Host.



(** After a load on a namespace that holds no public name, [getattr] of any
    public name other than [WEB_DIRECTORY] raises [AttributeError] for that
    name: the module has nothing else to hand out. *)
Theorem getattr_other_public_raises
    (g : gmap string value) (w : world) (n : string) :
  public g = ∅ ->
  is_public n = true ->
  n <> "WEB_DIRECTORY" ->
  exists s,
    load g w = Ok (tt, s)
    /\ getattr n s = Raise (AttributeError n).
Proof.
  intros Hg Hp Hn. eexists. split; [apply run_load|].
  unfold getattr. cbn [loaded globals].
  destruct (_ !! n) as [v|] eqn:E; [|reflexivity].
  apply (public_lookup _ n v Hp) in E.
  rewrite public_loaded, Hg, lookup_insert_ne, lookup_empty in E by congruence.
  discriminate.
Qed.

(** Reading the node-class table of a freshly imported package. *)
Lemma getattr_other_public_raises_witness :
  exists s,
    load (fresh_namespace "minimap" init_file)
         (plain_world (installed_root ext_with_script)) = Ok (tt, s)
    /\ getattr "NODE_CLASS_MAPPINGS" s
       = Raise (AttributeError "NODE_CLASS_MAPPINGS").
Proof.
  apply (getattr_other_public_raises
           (fresh_namespace "minimap" init_file)
           (plain_world (installed_root ext_with_script))
           "NODE_CLASS_MAPPINGS");
    [reflexivity | reflexivity | discriminate].
Defined.

End Reload.
